(** * GroupContextProvider.tsx: the group context and the DatasetQuery artifact

    A shallow embedding of
    [app/packages/core/src/components/Modal/Group/GroupContextProvider.tsx].
    The file has two halves:

    - a React context ([groupContext]) that hands one callback,
      [lookerRefCallback], to the components below a [GroupContextProvider];
    - the Relay artifact of [DatasetQuery]: the TypeScript types of its
      variables and response, and the [ConcreteRequest] that an immediately
      invoked function builds from the locals [v0] .. [v9].

    JavaScript [null] is [None]; an object literal with a ["kind"] tag is a
    constructor of an inductive type; the other object literals are records.
    The function that builds the request is also given as a program, with its
    identifiers, to state what it reads of the environment it runs in. *)

From Stdlib Require Import String Ascii List Bool Arith Lia.
Import ListNotations.
Open Scope string_scope.
Set Implicit Arguments.
Set Warnings "-register-all".

(* ================================================================== *)
(** ** Relay runtime data (the part of [relay-runtime] the artifact uses) *)

Module Relay.

(** [{ "defaultValue": null, "kind": "LocalArgument", "name": ... }] *)
Inductive ArgumentDefinition : Type :=
| LocalArgument (defaultValue : option string) (name : string).

(** [{ "kind": "Variable", "name": ..., "variableName": ... }] *)
Inductive Argument : Type :=
| VariableArgument (name : string) (variableName : string).

(** The two kinds of selection the artifact contains. *)
Inductive Selection : Type :=
| ScalarField (alias : option string) (args : option (list Argument))
              (name : string) (storageKey : option string)
| LinkedField (alias : option string) (args : option (list Argument))
              (concreteType : option string) (name : string) (plural : bool)
              (selections : list Selection) (storageKey : option string).

(** ["kind": "Fragment"] *)
Record ReaderFragment : Type := Fragment {
  fragment_argumentDefinitions : list ArgumentDefinition;
  fragment_metadata : option (list (string * string));
  fragment_name : string;
  fragment_selections : list Selection;
  fragment_type : string;
  fragment_abstractKey : option string
}.

(** ["kind": "Operation"] *)
Record NormalizationOperation : Type := Operation {
  operation_argumentDefinitions : list ArgumentDefinition;
  operation_name : string;
  operation_selections : list Selection
}.

(** The ["params"] object. *)
Record RequestParameters : Type := Params {
  cacheID : option string;
  id : option string;
  metadata : list (string * string);
  params_name : string;
  operationKind : string;
  text : option string
}.

(** ["kind": "Request"].  [hash] is not part of the literal: the module
    assigns it afterwards, so a request starts without one. *)
Record ConcreteRequest : Type := Request {
  fragment : ReaderFragment;
  operation : NormalizationOperation;
  params : RequestParameters;
  hash : option string
}.

Definition argument_definition_name (d : ArgumentDefinition) : string :=
  match d with LocalArgument _ n => n end.

Definition argument_definition_default (d : ArgumentDefinition) : option string :=
  match d with LocalArgument v _ => v end.

Definition argument_name (a : Argument) : string :=
  match a with VariableArgument n _ => n end.

Definition argument_variable (a : Argument) : string :=
  match a with VariableArgument _ v => v end.

Definition selection_name (s : Selection) : string :=
  match s with
  | ScalarField _ _ n _ => n
  | LinkedField _ _ _ n _ _ _ => n
  end.

Definition selection_args (s : Selection) : list Argument :=
  match s with
  | ScalarField _ a _ _ | LinkedField _ a _ _ _ _ _ =>
      match a with Some l => l | None => [] end
  end.

(** The sub-selections of a field: none for a scalar. *)
Definition selection_children (s : Selection) : list Selection :=
  match s with
  | ScalarField _ _ _ _ => []
  | LinkedField _ _ _ _ _ sel _ => sel
  end.

Definition is_scalar (s : Selection) : bool :=
  match s with ScalarField _ _ _ _ => true | LinkedField _ _ _ _ _ _ _ => false end.

Definition field_names (sel : list Selection) : list string :=
  map selection_name sel.

(** The first selection of a list with the given field name. *)
Fixpoint find_field (n : string) (sel : list Selection) : option Selection :=
  match sel with
  | [] => None
  | s :: rest => if String.eqb (selection_name s) n then Some s else find_field n rest
  end.

(** Follow a path of field names down a selection list. *)
Fixpoint select_path (path : list string) (sel : list Selection)
  : option (list Selection) :=
  match path with
  | [] => Some sel
  | n :: rest =>
      match find_field n sel with
      | Some s => select_path rest (selection_children s)
      | None => None
      end
  end.

(** Every root-to-leaf path of field names: one per scalar the request reads. *)
Fixpoint leaf_paths (s : Selection) : list (list string) :=
  match s with
  | ScalarField _ _ n _ => [[n]]
  | LinkedField _ _ _ n _ sel _ =>
      map (cons n) (flat_map leaf_paths sel)
  end.

Definition all_leaf_paths (sel : list Selection) : list (list string) :=
  flat_map leaf_paths sel.

(** Every variable a selection list refers to, in order of occurrence. *)
Fixpoint used_variables (s : Selection) : list string :=
  map argument_variable (selection_args s) ++
  match s with
  | ScalarField _ _ _ _ => []
  | LinkedField _ _ _ _ _ sel _ => flat_map used_variables sel
  end.

End Relay.

(* ================================================================== *)
(** ** The generated artifact: [const node: ConcreteRequest = (function(){...})()] *)

Module DatasetQuery.
Import Relay.

(** The locals of the immediately invoked function, under their own names. *)

Definition v0 : list ArgumentDefinition :=
  [ LocalArgument None "name";
    LocalArgument None "view" ].

Definition v1 : Selection := ScalarField None None "name" None.

Definition v2 : list Selection :=
  [ ScalarField None None "ftype" None;
    ScalarField None None "subfield" None;
    ScalarField None None "embeddedDocType" None;
    ScalarField None None "path" None;
    ScalarField None None "dbField" None ].

Definition v3 : list Selection :=
  [ ScalarField None None "target" None;
    ScalarField None None "value" None ].

Definition v4 : Selection := ScalarField None None "key" None.
Definition v5 : Selection := ScalarField None None "version" None.
Definition v6 : Selection := ScalarField None None "timestamp" None.
Definition v7 : Selection := ScalarField None None "viewStages" None.
Definition v8 : Selection := ScalarField None None "cls" None.

Definition v9 : list Selection :=
  [ LinkedField None
      (Some [ VariableArgument "name" "name";
              VariableArgument "view" "view" ])
      (Some "Dataset") "dataset" false
      [ ScalarField None None "id" None;
        v1;
        ScalarField None None "mediaType" None;
        LinkedField None None (Some "SampleField") "sampleFields" true v2 None;
        LinkedField None None (Some "SampleField") "frameFields" true v2 None;
        LinkedField None None (Some "SidebarGroup") "appSidebarGroups" true
          [ v1;
            ScalarField None None "paths" None ]
          None;
        LinkedField None None (Some "NamedTargets") "maskTargets" true
          [ v1;
            LinkedField None None (Some "Target") "targets" true v3 None ]
          None;
        LinkedField None None (Some "Target") "defaultMaskTargets" true v3 None;
        LinkedField None None (Some "EvaluationRun") "evaluations" true
          [ v4; v5; v6; v7;
            LinkedField None None (Some "EvaluationRunConfig") "config" false
              [ v8;
                ScalarField None None "predField" None;
                ScalarField None None "gtField" None ]
              None ]
          None;
        LinkedField None None (Some "BrainRun") "brainMethods" true
          [ v4; v5; v6; v7;
            LinkedField None None (Some "BrainRunConfig") "config" false
              [ v8;
                ScalarField None None "embeddingsField" None;
                ScalarField None None "method" None;
                ScalarField None None "patchesField" None ]
              None ]
          None;
        ScalarField None None "lastLoadedAt" None;
        ScalarField None None "createdAt" None;
        v5 ]
      None ].

(** ["text"]: the GraphQL document sent to the server, line breaks included. *)
Definition query_text : string :=
"query DatasetQuery(
  $name: String!
  $view: JSONArray
) {
  dataset(name: $name, view: $view) {
    id
    name
    mediaType
    sampleFields {
      ftype
      subfield
      embeddedDocType
      path
      dbField
    }
    frameFields {
      ftype
      subfield
      embeddedDocType
      path
      dbField
    }
    appSidebarGroups {
      name
      paths
    }
    maskTargets {
      name
      targets {
        target
        value
      }
    }
    defaultMaskTargets {
      target
      value
    }
    evaluations {
      key
      version
      timestamp
      viewStages
      config {
        cls
        predField
        gtField
      }
    }
    brainMethods {
      key
      version
      timestamp
      viewStages
      config {
        cls
        embeddingsField
        method
        patchesField
      }
    }
    lastLoadedAt
    createdAt
    version
  }
}
".

(** What the function returns.  It has no parameter and no free variable, so
    the environment [env] it is called in is not consulted. *)
Definition node_function (Env : Type) (env : Env) : ConcreteRequest :=
  {| fragment :=
       {| fragment_argumentDefinitions := v0;
          fragment_metadata := None;
          fragment_name := "DatasetQuery";
          fragment_selections := v9;
          fragment_type := "Query";
          fragment_abstractKey := None |};
     operation :=
       {| operation_argumentDefinitions := v0;
          operation_name := "DatasetQuery";
          operation_selections := v9 |};
     params :=
       {| cacheID := Some "33bb58955b13aadd3c3abc537b89af36";
          id := None;
          metadata := [];
          params_name := "DatasetQuery";
          operationKind := "query";
          text := Some query_text |};
     hash := None |}.

(** [(node as any).hash = ...]: the assignment that follows the call. *)
Definition set_hash (h : string) (r : ConcreteRequest) : ConcreteRequest :=
  {| fragment := fragment r; operation := operation r;
     params := params r; hash := Some h |}.

(** Evaluating the module in an environment: call the function, assign the
    hash, export the result. *)
Definition evaluate_module (Env : Type) (env : Env) : ConcreteRequest :=
  set_hash "671e9861e5a3128117633ab7554973b0" (node_function env).

(** [export default node], evaluated in the empty environment. *)
Definition node : ConcreteRequest := evaluate_module tt.

(** The selections under the root field [dataset]. *)
Definition dataset_selections : list Selection :=
  match select_path ["dataset"] (operation_selections (operation node)) with
  | Some sel => sel
  | None => []
  end.

(** The selections of the entries of [sampleFields] and of [frameFields]. *)
Definition sample_field_selections : list Selection :=
  match select_path ["sampleFields"] dataset_selections with
  | Some sel => sel | None => [] end.

Definition frame_field_selections : list Selection :=
  match select_path ["frameFields"] dataset_selections with
  | Some sel => sel | None => [] end.

(** The selections of a run record, and of its [config], by the name of the
    list the record belongs to. *)
Definition run_selections (runs : string) : option (list Selection) :=
  select_path [runs] dataset_selections.

Definition run_config_selections (runs : string) : option (list Selection) :=
  select_path [runs; "config"] dataset_selections.

End DatasetQuery.

(* ================================================================== *)
(** ** The exported TypeScript types, as data *)

Module TypeScript.

Record Property (T : Type) : Type := Prop_ {
  prop_name : string;
  prop_optional : bool;      (* declared with [?] *)
  prop_type : T
}.

Inductive TsType : Type :=
| TsString
| TsNumber
| TsArray                               (* the bare [Array] *)
| TsNamed (alias : string)              (* a type alias, here [MediaType] *)
| TsOrNull (t : TsType)                 (* [t | null] *)
| TsReadonlyArray (elem : TsType)       (* [ReadonlyArray<elem>] *)
| TsObject (props : list (Property TsType)).

Definition required (n : string) (t : TsType) : Property TsType :=
  Prop_ n false t.

Definition optional (n : string) (t : TsType) : Property TsType :=
  Prop_ n true t.

(** The tree of property names of a type, looking through [| null] and
    [ReadonlyArray]. *)
Inductive Shape : Type :=
| Field (name : string) (sub : list Shape).

Fixpoint ts_shape (t : TsType) : list Shape :=
  match t with
  | TsObject props =>
      map (fun p => Field (prop_name p) (ts_shape (prop_type p))) props
  | TsOrNull t' => ts_shape t'
  | TsReadonlyArray t' => ts_shape t'
  | TsString | TsNumber | TsArray | TsNamed _ => []
  end.

Fixpoint selection_shape (s : Relay.Selection) : Shape :=
  match s with
  | Relay.ScalarField _ _ n _ => Field n []
  | Relay.LinkedField _ _ _ n _ sel _ => Field n (map selection_shape sel)
  end.

(** A value of the type may be [null]. *)
Definition nullable (t : TsType) : bool :=
  match t with TsOrNull _ => true | _ => false end.

(** [export type DatasetQuery$variables] *)
Definition DatasetQuery_variables : TsType :=
  TsObject
    [ required "name" TsString;
      optional "view" (TsOrNull TsArray) ].

Definition field_type : TsType :=
  TsObject
    [ required "ftype" TsString;
      required "subfield" (TsOrNull TsString);
      required "embeddedDocType" (TsOrNull TsString);
      required "path" TsString;
      required "dbField" (TsOrNull TsString) ].

Definition target_type : TsType :=
  TsObject
    [ required "target" TsNumber;
      required "value" TsString ].

(** [export type DatasetQuery$data].  Every property of it is [readonly].  The
    two field types and the two target types are written out twice in the
    source; they are the same text. *)
Definition DatasetQuery_data : TsType :=
  TsObject
    [ required "dataset"
        (TsOrNull (TsObject
          [ required "id" TsString;
            required "name" TsString;
            required "mediaType" (TsOrNull (TsNamed "MediaType"));
            required "sampleFields" (TsReadonlyArray field_type);
            required "frameFields" (TsReadonlyArray field_type);
            required "appSidebarGroups"
              (TsOrNull (TsReadonlyArray (TsObject
                [ required "name" TsString;
                  required "paths" (TsReadonlyArray TsString) ])));
            required "maskTargets"
              (TsReadonlyArray (TsObject
                [ required "name" TsString;
                  required "targets" (TsReadonlyArray target_type) ]));
            required "defaultMaskTargets"
              (TsOrNull (TsReadonlyArray target_type));
            required "evaluations"
              (TsReadonlyArray (TsObject
                [ required "key" TsString;
                  required "version" TsString;
                  required "timestamp" TsString;
                  required "viewStages" (TsReadonlyArray TsString);
                  required "config" (TsObject
                    [ required "cls" TsString;
                      required "predField" TsString;
                      required "gtField" TsString ]) ]));
            required "brainMethods"
              (TsReadonlyArray (TsObject
                [ required "key" TsString;
                  required "version" TsString;
                  required "timestamp" TsString;
                  required "viewStages" (TsReadonlyArray TsString);
                  required "config" (TsObject
                    [ required "cls" TsString;
                      required "embeddingsField" (TsOrNull TsString);
                      required "method" TsString;
                      required "patchesField" (TsOrNull TsString) ]) ]));
            required "lastLoadedAt" TsString;
            required "createdAt" TsString;
            required "version" TsString ])) ].

Definition properties (t : TsType) : list (Property TsType) :=
  match t with TsObject props => props | _ => [] end.

End TypeScript.

(* ================================================================== *)
(** ** GraphQL documents: reading variable definitions, printing selections

    The artifact carries the query twice: as the selection tree and as the
    document text.  These functions read the head of a document and print a
    selection tree the way the text is laid out (two spaces per level, one
    field per line), so that the two can be compared. *)

Module GraphQL.
Import Relay.

Definition newline : string := String (ascii_of_nat 10) EmptyString.

(** Cut a string at every occurrence of [c]. *)
Fixpoint split_on (c : ascii) (s : string) : list string :=
  match s with
  | EmptyString => [EmptyString]
  | String a rest =>
      if Ascii.eqb a c then EmptyString :: split_on c rest
      else match split_on c rest with
           | [] => [String a EmptyString]
           | w :: ws => String a w :: ws
           end
  end.

Fixpoint trim_left (s : string) : string :=
  match s with
  | EmptyString => EmptyString
  | String a rest => if Ascii.eqb a " " then trim_left rest else s
  end.

Fixpoint last_char (s : string) : option ascii :=
  match s with
  | EmptyString => None
  | String a EmptyString => Some a
  | String _ rest => last_char rest
  end.

(** A GraphQL type is non-null when it is written with a final [!]. *)
Definition non_null (type : string) : bool :=
  match last_char type with
  | Some a => Ascii.eqb a "!"
  | None => false
  end.

(** One line [$name: Type] of the head of a document. *)
Definition parse_variable_definition (line : string) : option (string * string) :=
  match trim_left line with
  | String a rest =>
      if Ascii.eqb a "$" then
        match split_on ":" rest with
        | [n; t] => Some (n, trim_left t)
        | _ => None
        end
      else None
  | EmptyString => None
  end.

Fixpoint filter_map (A B : Type) (f : A -> option B) (l : list A) : list B :=
  match l with
  | [] => []
  | x :: rest =>
      match f x with
      | Some y => y :: filter_map f rest
      | None => filter_map f rest
      end
  end.

(** The variables a document declares, with their types, in order. *)
Definition variable_definitions (document : string) : list (string * string) :=
  filter_map parse_variable_definition (split_on (ascii_of_nat 10) document).

Fixpoint lookup (n : string) (l : list (string * string)) : option string :=
  match l with
  | [] => None
  | (k, v) :: rest => if String.eqb k n then Some v else lookup n rest
  end.

Fixpoint spaces (n : nat) : string :=
  match n with
  | 0 => EmptyString
  | S k => String " " (spaces k)
  end.

Definition print_argument (a : Argument) : string :=
  argument_name a ++ ": $" ++ argument_variable a.

Definition print_arguments (l : list Argument) : string :=
  match l with
  | [] => EmptyString
  | _ => "(" ++ String.concat ", " (map print_argument l) ++ ")"
  end.

Fixpoint print_selection (indent : nat) (s : Selection) : string :=
  match s with
  | ScalarField _ _ n _ =>
      spaces indent ++ n ++ print_arguments (selection_args s) ++ newline
  | LinkedField _ _ _ n _ sel _ =>
      spaces indent ++ n ++ print_arguments (selection_args s) ++ " {" ++ newline
      ++ String.concat EmptyString (map (print_selection (indent + 2)) sel)
      ++ spaces indent ++ "}" ++ newline
  end.

Definition print_variable_definition (types : list (string * string))
  (d : ArgumentDefinition) : string :=
  "  $" ++ argument_definition_name d ++ ": "
  ++ match lookup (argument_definition_name d) types with
     | Some t => t
     | None => EmptyString
     end
  ++ newline.

(** The document of an operation, given the types of its variables. *)
Definition print_operation (kind : string) (types : list (string * string))
  (op : NormalizationOperation) : string :=
  kind ++ " " ++ operation_name op ++ "(" ++ newline
  ++ String.concat EmptyString
       (map (print_variable_definition types) (operation_argumentDefinitions op))
  ++ ") {" ++ newline
  ++ String.concat EmptyString (map (print_selection 2) (operation_selections op))
  ++ "}" ++ newline.

End GraphQL.

(* ================================================================== *)
(** ** React context: [createContext], [useContext], providers

    React keeps, for a context, the value of the nearest provider above the
    component that is being rendered; [useContext] returns it, or the default
    the context was created with when there is no provider above.  A tree has
    host elements, text, lists of nodes, providers of the one context of this
    file, and function components.  JavaScript functions may write state, so
    a component body takes and returns the state [World]. *)

Module React.
Section Render.

Variables (T World : Type).

(** [React.createContext(defaultValue)] *)
Record Context : Type := createContext { defaultValue : T }.

(** What the nearest provider above supplies, if there is one. *)
Definition Binding : Type := option T.

(** [useContext(context)] in a component rendered under [b]. *)
Definition useContext (c : Context) (b : Binding) : T :=
  match b with
  | Some v => v
  | None => defaultValue c
  end.

Inductive ReactNode : Type :=
| Text (s : string)
| HostElement (tag : string) (children : list ReactNode)
| Nodes (children : list ReactNode)
| Provider (value : T) (children : ReactNode)
| FunctionComponent (body : Binding -> World -> ReactNode * World).

Inductive Dom : Type :=
| DomText (s : string)
| DomElement (tag : string) (children : list Dom).

(** The outcome of rendering: the host output, and for every function
    component that was called, how many providers lie above it and the binding
    it was called under. *)
Record Rendered : Type := {
  dom : list Dom;
  calls : list (nat * Binding)
}.

Definition nothing : Rendered := {| dom := []; calls := [] |}.

Definition both (r1 r2 : Rendered) : Rendered :=
  {| dom := dom r1 ++ dom r2; calls := calls r1 ++ calls r2 |}.

(** Rendering a list of nodes from left to right, the state passing from one
    to the next. *)
Section RenderList.

Variable render_one : ReactNode -> World -> Rendered * World.

Fixpoint render_list (l : list ReactNode) (w : World) : Rendered * World :=
  match l with
  | [] => (nothing, w)
  | n :: rest =>
      let (r1, w1) := render_one n w in
      let (r2, w2) := render_list rest w1 in
      (both r1 r2, w2)
  end.

End RenderList.

Fixpoint render (depth : nat) (b : Binding) (n : ReactNode) (w : World)
  : Rendered * World :=
  match n with
  | Text s => ({| dom := [DomText s]; calls := [] |}, w)
  | HostElement tag children =>
      let (r, w') := render_list (render depth b) children w in
      ({| dom := [DomElement tag (dom r)]; calls := calls r |}, w')
  | Nodes children => render_list (render depth b) children w
  | Provider value children => render (S depth) (Some value) children w
  | FunctionComponent body =>
      let (n', w1) := body b w in
      let (r, w2) := render depth b n' w1 in
      ({| dom := dom r; calls := (depth, b) :: calls r |}, w2)
  end.

(** Rendering a whole tree: nothing is above the root. *)
Definition render_root (n : ReactNode) (w : World) : Rendered * World :=
  render 0 None n w.

End Render.

Arguments Text {T World} s.
Arguments HostElement {T World} tag children.
Arguments Nodes {T World} children.
Arguments Provider {T World} value children.
Arguments FunctionComponent {T World} body.
Arguments nothing {T}.

End React.

(* ================================================================== *)
(** ** The group context of the file *)

Module Group.
Section GroupContext.

(** [Lookers] comes from [@fiftyone/state]; [World] is whatever state a
    callback may write. *)
Variables (Lookers World : Type).

(** What a function of return type [void] returns. *)
Inductive JsVoid : Type := undefined.

(** [(looker: Lookers) => void] *)
Definition Callback : Type := Lookers -> World -> JsVoid * World.

(** [export type GroupContext] *)
Record GroupContext : Type := {
  lookerRefCallback : Callback
}.

(** [lookerRefCallback: () => {}] *)
Definition defaultOptions : GroupContext :=
  {| lookerRefCallback := fun _ w => (undefined, w) |}.

Definition groupContext : React.Context GroupContext :=
  React.createContext defaultOptions.

(** [() => useContext(groupContext)], called in a component rendered under [b]. *)
Definition useGroupContext (b : React.Binding GroupContext) : GroupContext :=
  React.useContext groupContext b.

(** [interface GroupContextProviderProps]; its second field is
    [lookerRefCallback], the name the context record already uses. *)
Record GroupContextProviderProps : Type := {
  children : React.ReactNode GroupContext World;
  props_lookerRefCallback : Callback
}.

(** The component: it wraps its children in the provider of [groupContext]
    with the value [{ lookerRefCallback }]. *)
Definition GroupContextProvider (props : GroupContextProviderProps)
  (b : React.Binding GroupContext) (w : World)
  : React.ReactNode GroupContext World * World :=
  (React.Provider {| lookerRefCallback := props_lookerRefCallback props |}
                  (children props),
   w).

(** [<GroupContextProvider lookerRefCallback={f}>{c}</GroupContextProvider>] *)
Definition GroupContextProvider_element (f : Callback)
  (c : React.ReactNode GroupContext World) : React.ReactNode GroupContext World :=
  React.FunctionComponent
    (GroupContextProvider {| children := c; props_lookerRefCallback := f |}).

(** A component whose body is [const ctx = useGroupContext(); return k(ctx)]. *)
Definition Consumer (k : GroupContext -> React.ReactNode GroupContext World)
  : React.ReactNode GroupContext World :=
  React.FunctionComponent (fun b w => (k (useGroupContext b), w)).

End GroupContext.

Arguments undefined : clear implicits.
Arguments defaultOptions {Lookers World}.
Arguments groupContext {Lookers World}.
Arguments useGroupContext {Lookers World} b.

End Group.

(* ================================================================== *)
(** ** What the specification enumerates *)

Module Spec.

(** The spec's list of what the response returns: dataset id, name, media
    type; sample and frame field schemas; sidebar groupings; named and default
    mask targets; evaluation and brain-method runs. *)
Definition contract_fields : list string :=
  [ "id"; "name"; "mediaType";
    "sampleFields"; "frameFields";
    "appSidebarGroups";
    "maskTargets"; "defaultMaskTargets";
    "evaluations"; "brainMethods" ].

(** The spec's four components of a schema field: type, subfield,
    embedded-document-type, storage-path. *)
Definition field_components : list string :=
  [ "ftype"; "subfield"; "embeddedDocType"; "path" ].

End Spec.

(* ================================================================== *)
(** ** A concrete world: lookers are numbers, the state is the list of the
       lookers registered so far *)

Module Registry.
Import Group.

Definition Lookers : Type := nat.
Definition World : Type := list nat.

(** A callback that records the looker it is given. *)
Definition register : Callback Lookers World :=
  fun looker w => (undefined, looker :: w).

Definition leaf : React.ReactNode (GroupContext Lookers World) World :=
  Consumer (fun _ => React.Text "looker").

(** A consumer directly under a provider of [register]. *)
Definition one_level : React.ReactNode (GroupContext Lookers World) World :=
  GroupContextProvider_element register (React.Nodes [leaf]).

(** A consumer under a provider of the default callback, itself under a
    provider of [register]. *)
Definition two_levels : React.ReactNode (GroupContext Lookers World) World :=
  GroupContextProvider_element register
    (React.HostElement "div"
       [ GroupContextProvider_element (lookerRefCallback defaultOptions) leaf ]).

End Registry.

(* ================================================================== *)
(** ** Kinds of trees *)

Module ReactTrees.
Import React.
Section Trees.

Variables (T World : Type).

(** A tree with no function component in it: text, host elements, lists and
    providers only. *)
Fixpoint static (n : ReactNode T World) : bool :=
  match n with
  | Text _ => true
  | HostElement _ children => forallb static children
  | Nodes children => forallb static children
  | Provider _ children => static children
  | FunctionComponent _ => false
  end.

(** A tree whose component bodies, whatever they are called with, return the
    state they were given, and return such a tree again. *)
Inductive quiet : ReactNode T World -> Prop :=
| quiet_Text (s : string) : quiet (Text s)
| quiet_HostElement (tag : string) (children : list (ReactNode T World)) :
    Forall quiet children -> quiet (HostElement tag children)
| quiet_Nodes (children : list (ReactNode T World)) :
    Forall quiet children -> quiet (Nodes children)
| quiet_Provider (value : T) (children : ReactNode T World) :
    quiet children -> quiet (Provider value children)
| quiet_FunctionComponent (body : Binding T -> World -> ReactNode T World * World) :
    (forall b w, snd (body b w) = w /\ quiet (fst (body b w))) ->
    quiet (FunctionComponent body).

End Trees.
End ReactTrees.

(* ================================================================== *)
(** ** The response type against the selections *)

Module Typing.
Import Relay TypeScript.

(** The properties of the object a type describes, through [| null] and
    [ReadonlyArray]. *)
Fixpoint object_properties (t : TsType) : list (Property TsType) :=
  match t with
  | TsObject props => props
  | TsOrNull t' => object_properties t'
  | TsReadonlyArray t' => object_properties t'
  | TsString | TsNumber | TsArray | TsNamed _ => []
  end.

(** A type with no object in it. *)
Fixpoint is_scalar_type (t : TsType) : bool :=
  match t with
  | TsObject _ => false
  | TsOrNull t' => is_scalar_type t'
  | TsReadonlyArray t' => is_scalar_type t'
  | TsString | TsNumber | TsArray | TsNamed _ => true
  end.

Definition strip_null (t : TsType) : TsType :=
  match t with TsOrNull t' => t' | _ => t end.

(** A list of objects, possibly [null] as a whole. *)
Definition is_object_list (t : TsType) : bool :=
  match strip_null t with
  | TsReadonlyArray (TsObject _) => true
  | _ => false
  end.

(** One object, possibly [null]. *)
Definition is_single_object (t : TsType) : bool :=
  match strip_null t with
  | TsObject _ => true
  | _ => false
  end.

(** The type suits the kind of the selection: a scalar field has a type
    without objects, a plural linked field a list of objects, a singular
    linked field one object. *)
Definition kind_agrees (t : TsType) (s : Selection) : bool :=
  match s with
  | ScalarField _ _ _ _ => is_scalar_type t
  | LinkedField _ _ _ _ plural _ _ =>
      if plural then is_object_list t else is_single_object t
  end.

Fixpoint find_property (n : string) (props : list (Property TsType))
  : option (Property TsType) :=
  match props with
  | [] => None
  | p :: rest => if String.eqb (prop_name p) n then Some p else find_property n rest
  end.

(** The type found by following property names from a type. *)
Fixpoint type_at (path : list string) (t : TsType) : option TsType :=
  match path with
  | [] => Some t
  | n :: rest =>
      match find_property n (object_properties t) with
      | Some p => type_at rest (prop_type p)
      | None => None
      end
  end.

(** The selection found by following field names from a selection list. *)
Fixpoint field_at (path : list string) (sel : list Selection) : option Selection :=
  match path with
  | [] => None
  | n :: rest =>
      match find_field n sel with
      | Some s =>
          match rest with
          | [] => Some s
          | _ => field_at rest (selection_children s)
          end
      | None => None
      end
  end.

(** Check a type against a selection, all the way down: the kinds agree, and
    the properties of the object are the selected fields, one for one and in
    order. *)
Fixpoint conforms (t : TsType) (s : Selection) {struct s} : bool :=
  kind_agrees t s &&
  match s with
  | ScalarField _ _ _ _ => true
  | LinkedField _ _ _ _ _ sel _ =>
      (fix all (props : list (Property TsType)) (ss : list Selection)
            {struct ss} : bool :=
         match props, ss with
         | [], [] => true
         | p :: props', s' :: ss' =>
             String.eqb (prop_name p) (selection_name s')
             && conforms (prop_type p) s' && all props' ss'
         | _, _ => false
         end) (object_properties t) sel
  end.

Fixpoint conforms_all (props : list (Property TsType)) (ss : list Selection)
  {struct ss} : bool :=
  match props, ss with
  | [], [] => true
  | p :: props', s' :: ss' =>
      String.eqb (prop_name p) (selection_name s')
      && conforms (prop_type p) s' && conforms_all props' ss'
  | _, _ => false
  end.

End Typing.

(* ================================================================== *)
(** ** The JavaScript of the artifact

    The function that builds [node] is made of literals, array and object
    literals, and identifiers.  An identifier is looked up in the locals of
    the function and, when it is not one of them, in the global environment
    the module runs in; an identifier bound nowhere is an error. *)

Module JavaScript.

Inductive Value : Type :=
| VUndefined
| VNull
| VBool (b : bool)
| VString (s : string)
| VArray (items : list Value)
| VObject (fields : list (string * Value)).

Inductive Expr : Type :=
| ENull
| EBool (b : bool)
| EString (s : string)
| EArray (items : list Expr)
| EObject (fields : list (string * Expr))
| EVar (x : string).

(** The global environment: what an identifier that is not a local stands
    for, if anything. *)
Definition Globals : Type := string -> option Value.

Definition Locals : Type := list (string * Value).

Fixpoint local (x : string) (l : Locals) : option Value :=
  match l with
  | [] => None
  | (y, v) :: rest => if String.eqb y x then Some v else local x rest
  end.

Definition resolve (l : Locals) (g : Globals) (x : string) : option Value :=
  match local x l with
  | Some v => Some v
  | None => g x
  end.

(** [object[k] = v]: an existing key keeps its place, a new one goes last. *)
Fixpoint set_property (k : string) (v : Value) (fields : list (string * Value))
  : list (string * Value) :=
  match fields with
  | [] => [(k, v)]
  | (k', v') :: rest =>
      if String.eqb k' k then (k, v) :: rest
      else (k', v') :: set_property k v rest
  end.

Definition make_object (pairs : list (string * Value)) : Value :=
  VObject (fold_left (fun o kv => set_property (fst kv) (snd kv) o) pairs []).

Fixpoint eval (l : Locals) (g : Globals) (e : Expr) : option Value :=
  match e with
  | ENull => Some VNull
  | EBool b => Some (VBool b)
  | EString s => Some (VString s)
  | EVar x => resolve l g x
  | EArray items =>
      option_map VArray
        ((fix all (es : list Expr) : option (list Value) :=
            match es with
            | [] => Some []
            | e' :: rest =>
                match eval l g e', all rest with
                | Some v, Some vs => Some (v :: vs)
                | _, _ => None
                end
            end) items)
  | EObject fields =>
      option_map make_object
        ((fix all (fs : list (string * Expr)) : option (list (string * Value)) :=
            match fs with
            | [] => Some []
            | (k, e') :: rest =>
                match eval l g e', all rest with
                | Some v, Some vs => Some ((k, v) :: vs)
                | _, _ => None
                end
            end) fields)
  end.

(** [var x = e, ...; return r;] *)
Record FunctionBody : Type := {
  declarations : list (string * Expr);
  returned : Expr
}.

(** [var] declarations are hoisted: every declared name is a local, and
    [undefined], from the start of the call. *)
Definition hoist (decls : list (string * Expr)) : Locals :=
  map (fun d => (fst d, VUndefined)) decls.

Fixpoint assign (x : string) (v : Value) (l : Locals) : Locals :=
  match l with
  | [] => []
  | (y, w) :: rest =>
      if String.eqb y x then (y, v) :: rest else (y, w) :: assign x v rest
  end.

Fixpoint run_declarations (g : Globals) (decls : list (string * Expr))
  (l : Locals) : option Locals :=
  match decls with
  | [] => Some l
  | (x, e) :: rest =>
      match eval l g e with
      | Some v => run_declarations g rest (assign x v l)
      | None => None
      end
  end.

(** [(function(){ body })()] in the global environment [g]. *)
Definition call (g : Globals) (f : FunctionBody) : option Value :=
  match run_declarations g (declarations f) (hoist (declarations f)) with
  | Some l => eval l g (returned f)
  | None => None
  end.

(** [target.k = v] in module code: an error unless [target] is an object. *)
Definition assign_property (k : string) (v : Value) (target : Value)
  : option Value :=
  match target with
  | VObject fields => Some (VObject (set_property k v fields))
  | _ => None
  end.

(** The identifiers of an expression are all among [names]. *)
Fixpoint closed_in (names : list string) (e : Expr) : bool :=
  match e with
  | ENull | EBool _ | EString _ => true
  | EVar x => existsb (String.eqb x) names
  | EArray items => forallb (closed_in names) items
  | EObject fields => forallb (fun f => closed_in names (snd f)) fields
  end.

(** Every identifier of the body is one of its own [var]s. *)
Definition closed_body (f : FunctionBody) : bool :=
  let names := map fst (declarations f) in
  forallb (fun d => closed_in names (snd d)) (declarations f)
  && closed_in names (returned f).

(** Read a property path off a value. *)
Fixpoint get (path : list string) (v : Value) : option Value :=
  match path with
  | [] => Some v
  | k :: rest =>
      match v with
      | VObject fields =>
          match local k fields with
          | Some v' => get rest v'
          | None => None
          end
      | _ => None
      end
  end.

End JavaScript.

(* ================================================================== *)
(** ** The module as a program: lines 119 to 471 *)

Module DatasetQueryProgram.
Import JavaScript.

Definition v0_expr : Expr :=
  EArray
    [ EObject
        [ ("defaultValue", ENull);
          ("kind", EString "LocalArgument");
          ("name", EString "name") ];
      EObject
        [ ("defaultValue", ENull);
          ("kind", EString "LocalArgument");
          ("name", EString "view") ] ].

Definition v1_expr : Expr :=
  EObject
    [ ("alias", ENull);
      ("args", ENull);
      ("kind", EString "ScalarField");
      ("name", EString "name");
      ("storageKey", ENull) ].

Definition v2_expr : Expr :=
  EArray
    [ EObject
        [ ("alias", ENull);
          ("args", ENull);
          ("kind", EString "ScalarField");
          ("name", EString "ftype");
          ("storageKey", ENull) ];
      EObject
        [ ("alias", ENull);
          ("args", ENull);
          ("kind", EString "ScalarField");
          ("name", EString "subfield");
          ("storageKey", ENull) ];
      EObject
        [ ("alias", ENull);
          ("args", ENull);
          ("kind", EString "ScalarField");
          ("name", EString "embeddedDocType");
          ("storageKey", ENull) ];
      EObject
        [ ("alias", ENull);
          ("args", ENull);
          ("kind", EString "ScalarField");
          ("name", EString "path");
          ("storageKey", ENull) ];
      EObject
        [ ("alias", ENull);
          ("args", ENull);
          ("kind", EString "ScalarField");
          ("name", EString "dbField");
          ("storageKey", ENull) ] ].

Definition v3_expr : Expr :=
  EArray
    [ EObject
        [ ("alias", ENull);
          ("args", ENull);
          ("kind", EString "ScalarField");
          ("name", EString "target");
          ("storageKey", ENull) ];
      EObject
        [ ("alias", ENull);
          ("args", ENull);
          ("kind", EString "ScalarField");
          ("name", EString "value");
          ("storageKey", ENull) ] ].

Definition v4_expr : Expr :=
  EObject
    [ ("alias", ENull);
      ("args", ENull);
      ("kind", EString "ScalarField");
      ("name", EString "key");
      ("storageKey", ENull) ].

Definition v5_expr : Expr :=
  EObject
    [ ("alias", ENull);
      ("args", ENull);
      ("kind", EString "ScalarField");
      ("name", EString "version");
      ("storageKey", ENull) ].

Definition v6_expr : Expr :=
  EObject
    [ ("alias", ENull);
      ("args", ENull);
      ("kind", EString "ScalarField");
      ("name", EString "timestamp");
      ("storageKey", ENull) ].

Definition v7_expr : Expr :=
  EObject
    [ ("alias", ENull);
      ("args", ENull);
      ("kind", EString "ScalarField");
      ("name", EString "viewStages");
      ("storageKey", ENull) ].

Definition v8_expr : Expr :=
  EObject
    [ ("alias", ENull);
      ("args", ENull);
      ("kind", EString "ScalarField");
      ("name", EString "cls");
      ("storageKey", ENull) ].

Definition v9_expr : Expr :=
  EArray
    [ EObject
        [ ("alias", ENull);
          ("args",
            EArray
              [ EObject
                  [ ("kind", EString "Variable");
                    ("name", EString "name");
                    ("variableName", EString "name") ];
                EObject
                  [ ("kind", EString "Variable");
                    ("name", EString "view");
                    ("variableName", EString "view") ] ]);
          ("concreteType", EString "Dataset");
          ("kind", EString "LinkedField");
          ("name", EString "dataset");
          ("plural", EBool false);
          ("selections",
            EArray
              [ EObject
                  [ ("alias", ENull);
                    ("args", ENull);
                    ("kind", EString "ScalarField");
                    ("name", EString "id");
                    ("storageKey", ENull) ];
                EVar "v1";
                EObject
                  [ ("alias", ENull);
                    ("args", ENull);
                    ("kind", EString "ScalarField");
                    ("name", EString "mediaType");
                    ("storageKey", ENull) ];
                EObject
                  [ ("alias", ENull);
                    ("args", ENull);
                    ("concreteType", EString "SampleField");
                    ("kind", EString "LinkedField");
                    ("name", EString "sampleFields");
                    ("plural", EBool true);
                    ("selections", EVar "v2");
                    ("storageKey", ENull) ];
                EObject
                  [ ("alias", ENull);
                    ("args", ENull);
                    ("concreteType", EString "SampleField");
                    ("kind", EString "LinkedField");
                    ("name", EString "frameFields");
                    ("plural", EBool true);
                    ("selections", EVar "v2");
                    ("storageKey", ENull) ];
                EObject
                  [ ("alias", ENull);
                    ("args", ENull);
                    ("concreteType", EString "SidebarGroup");
                    ("kind", EString "LinkedField");
                    ("name", EString "appSidebarGroups");
                    ("plural", EBool true);
                    ("selections",
                      EArray
                        [ EVar "v1";
                          EObject
                            [ ("alias", ENull);
                              ("args", ENull);
                              ("kind", EString "ScalarField");
                              ("name", EString "paths");
                              ("storageKey", ENull) ] ]);
                    ("storageKey", ENull) ];
                EObject
                  [ ("alias", ENull);
                    ("args", ENull);
                    ("concreteType", EString "NamedTargets");
                    ("kind", EString "LinkedField");
                    ("name", EString "maskTargets");
                    ("plural", EBool true);
                    ("selections",
                      EArray
                        [ EVar "v1";
                          EObject
                            [ ("alias", ENull);
                              ("args", ENull);
                              ("concreteType", EString "Target");
                              ("kind", EString "LinkedField");
                              ("name", EString "targets");
                              ("plural", EBool true);
                              ("selections", EVar "v3");
                              ("storageKey", ENull) ] ]);
                    ("storageKey", ENull) ];
                EObject
                  [ ("alias", ENull);
                    ("args", ENull);
                    ("concreteType", EString "Target");
                    ("kind", EString "LinkedField");
                    ("name", EString "defaultMaskTargets");
                    ("plural", EBool true);
                    ("selections", EVar "v3");
                    ("storageKey", ENull) ];
                EObject
                  [ ("alias", ENull);
                    ("args", ENull);
                    ("concreteType", EString "EvaluationRun");
                    ("kind", EString "LinkedField");
                    ("name", EString "evaluations");
                    ("plural", EBool true);
                    ("selections",
                      EArray
                        [ EVar "v4";
                          EVar "v5";
                          EVar "v6";
                          EVar "v7";
                          EObject
                            [ ("alias", ENull);
                              ("args", ENull);
                              ("concreteType", EString "EvaluationRunConfig");
                              ("kind", EString "LinkedField");
                              ("name", EString "config");
                              ("plural", EBool false);
                              ("selections",
                                EArray
                                  [ EVar "v8";
                                    EObject
                                      [ ("alias", ENull);
                                        ("args", ENull);
                                        ("kind", EString "ScalarField");
                                        ("name", EString "predField");
                                        ("storageKey", ENull) ];
                                    EObject
                                      [ ("alias", ENull);
                                        ("args", ENull);
                                        ("kind", EString "ScalarField");
                                        ("name", EString "gtField");
                                        ("storageKey", ENull) ] ]);
                              ("storageKey", ENull) ] ]);
                    ("storageKey", ENull) ];
                EObject
                  [ ("alias", ENull);
                    ("args", ENull);
                    ("concreteType", EString "BrainRun");
                    ("kind", EString "LinkedField");
                    ("name", EString "brainMethods");
                    ("plural", EBool true);
                    ("selections",
                      EArray
                        [ EVar "v4";
                          EVar "v5";
                          EVar "v6";
                          EVar "v7";
                          EObject
                            [ ("alias", ENull);
                              ("args", ENull);
                              ("concreteType", EString "BrainRunConfig");
                              ("kind", EString "LinkedField");
                              ("name", EString "config");
                              ("plural", EBool false);
                              ("selections",
                                EArray
                                  [ EVar "v8";
                                    EObject
                                      [ ("alias", ENull);
                                        ("args", ENull);
                                        ("kind", EString "ScalarField");
                                        ("name", EString "embeddingsField");
                                        ("storageKey", ENull) ];
                                    EObject
                                      [ ("alias", ENull);
                                        ("args", ENull);
                                        ("kind", EString "ScalarField");
                                        ("name", EString "method");
                                        ("storageKey", ENull) ];
                                    EObject
                                      [ ("alias", ENull);
                                        ("args", ENull);
                                        ("kind", EString "ScalarField");
                                        ("name", EString "patchesField");
                                        ("storageKey", ENull) ] ]);
                              ("storageKey", ENull) ] ]);
                    ("storageKey", ENull) ];
                EObject
                  [ ("alias", ENull);
                    ("args", ENull);
                    ("kind", EString "ScalarField");
                    ("name", EString "lastLoadedAt");
                    ("storageKey", ENull) ];
                EObject
                  [ ("alias", ENull);
                    ("args", ENull);
                    ("kind", EString "ScalarField");
                    ("name", EString "createdAt");
                    ("storageKey", ENull) ];
                EVar "v5" ]);
          ("storageKey", ENull) ] ].

Definition return_expr : Expr :=
  EObject
    [ ("fragment",
        EObject
          [ ("argumentDefinitions", EVar "v0");
            ("kind", EString "Fragment");
            ("metadata", ENull);
            ("name", EString "DatasetQuery");
            ("selections", EVar "v9");
            ("type", EString "Query");
            ("abstractKey", ENull) ]);
      ("kind", EString "Request");
      ("operation",
        EObject
          [ ("argumentDefinitions", EVar "v0");
            ("kind", EString "Operation");
            ("name", EString "DatasetQuery");
            ("selections", EVar "v9") ]);
      ("params",
        EObject
          [ ("cacheID", EString "33bb58955b13aadd3c3abc537b89af36");
            ("id", ENull);
            ("metadata", EObject []);
            ("name", EString "DatasetQuery");
            ("operationKind", EString "query");
            ("text", EString DatasetQuery.query_text) ]) ].

(** [(function(){ var v0 = ..., v1 = ..., ..., v9 = ...; return {...}; })] *)
Definition node_body : FunctionBody :=
  {| declarations :=
       [ ("v0", v0_expr); ("v1", v1_expr); ("v2", v2_expr); ("v3", v3_expr);
         ("v4", v4_expr); ("v5", v5_expr); ("v6", v6_expr); ("v7", v7_expr);
         ("v8", v8_expr); ("v9", v9_expr) ];
     returned := return_expr |}.

(** [const node = (function(){...})(); (node as any).hash = "..."; export
    default node;] run in the global environment [g]. *)
Definition default_export (g : Globals) : option Value :=
  match call g node_body with
  | Some n => assign_property "hash" (VString "671e9861e5a3128117633ab7554973b0") n
  | None => None
  end.

(** The JavaScript value of the records of [Relay], key for key. *)

Definition nullable_string (o : option string) : Value :=
  match o with Some s => VString s | None => VNull end.

Definition string_map (l : list (string * string)) : Value :=
  VObject (map (fun kv => (fst kv, VString (snd kv))) l).

Definition argument_definition_value (d : Relay.ArgumentDefinition) : Value :=
  match d with
  | Relay.LocalArgument dv n =>
      VObject [ ("defaultValue", nullable_string dv);
                ("kind", VString "LocalArgument");
                ("name", VString n) ]
  end.

Definition argument_value (a : Relay.Argument) : Value :=
  match a with
  | Relay.VariableArgument n v =>
      VObject [ ("kind", VString "Variable");
                ("name", VString n);
                ("variableName", VString v) ]
  end.

Definition arguments_value (o : option (list Relay.Argument)) : Value :=
  match o with
  | Some l => VArray (map argument_value l)
  | None => VNull
  end.

Fixpoint selection_value (s : Relay.Selection) : Value :=
  match s with
  | Relay.ScalarField al ar n k =>
      VObject [ ("alias", nullable_string al);
                ("args", arguments_value ar);
                ("kind", VString "ScalarField");
                ("name", VString n);
                ("storageKey", nullable_string k) ]
  | Relay.LinkedField al ar c n pl sel k =>
      VObject [ ("alias", nullable_string al);
                ("args", arguments_value ar);
                ("concreteType", nullable_string c);
                ("kind", VString "LinkedField");
                ("name", VString n);
                ("plural", VBool pl);
                ("selections", VArray (map selection_value sel));
                ("storageKey", nullable_string k) ]
  end.

Definition fragment_value (f : Relay.ReaderFragment) : Value :=
  VObject
    [ ("argumentDefinitions",
        VArray (map argument_definition_value (Relay.fragment_argumentDefinitions f)));
      ("kind", VString "Fragment");
      ("metadata",
        match Relay.fragment_metadata f with
        | Some l => string_map l
        | None => VNull
        end);
      ("name", VString (Relay.fragment_name f));
      ("selections", VArray (map selection_value (Relay.fragment_selections f)));
      ("type", VString (Relay.fragment_type f));
      ("abstractKey", nullable_string (Relay.fragment_abstractKey f)) ].

Definition operation_value (o : Relay.NormalizationOperation) : Value :=
  VObject
    [ ("argumentDefinitions",
        VArray (map argument_definition_value (Relay.operation_argumentDefinitions o)));
      ("kind", VString "Operation");
      ("name", VString (Relay.operation_name o));
      ("selections", VArray (map selection_value (Relay.operation_selections o))) ].

Definition params_value (p : Relay.RequestParameters) : Value :=
  VObject
    [ ("cacheID", nullable_string (Relay.cacheID p));
      ("id", nullable_string (Relay.id p));
      ("metadata", string_map (Relay.metadata p));
      ("name", VString (Relay.params_name p));
      ("operationKind", VString (Relay.operationKind p));
      ("text", nullable_string (Relay.text p)) ].

Definition request_value (r : Relay.ConcreteRequest) : Value :=
  VObject
    ([ ("fragment", fragment_value (Relay.fragment r));
       ("kind", VString "Request");
       ("operation", operation_value (Relay.operation r));
       ("params", params_value (Relay.params r)) ]
     ++ match Relay.hash r with
        | Some h => [("hash", VString h)]
        | None => []
        end)%list.

End DatasetQueryProgram.

(* ================================================================== *)
(** ** More trees of the concrete world *)

Module RegistryTrees.
Import Group Registry.

(** A consumer under a provider of [register], and a second consumer beside
    that provider. *)
Definition beside : React.ReactNode (GroupContext Lookers World) World :=
  React.Nodes [one_level; leaf].

(** A consumer under [groupContext.Provider] used directly, without
    [GroupContextProvider]. *)
Definition bare_provider : React.ReactNode (GroupContext Lookers World) World :=
  React.Provider {| lookerRefCallback := register |} leaf.

End RegistryTrees.

(* ================================================================== *)
(** * Properties of the artifact *)

Module DatasetQueryFacts.
Import Relay DatasetQuery.

(** The module's result does not mention its environment. *)
Lemma evaluate_module_node (Env : Type) (env : Env) :
  evaluate_module env = node.
Proof. reflexivity. Qed.

(** [find_field] returns a member of the list that carries the name asked for. *)
Lemma find_field_some (n : string) (sel : list Selection) (s : Selection) :
  find_field n sel = Some s -> In s sel /\ selection_name s = n.
Proof.
  induction sel as [|x rest IH]; cbn; [discriminate|].
  destruct (String.eqb (selection_name x) n) eqn:E.
  - intros H; injection H as <-. split; [now left | now apply String.eqb_eq].
  - intros H. destruct (IH H) as [Hin Hn]. split; [now right | exact Hn].
Qed.

(** A name that no selection carries is not found. *)
Lemma find_field_none (n : string) (sel : list Selection) :
  find_field n sel = None <-> ~ In n (field_names sel).
Proof.
  induction sel as [|x rest IH]; cbn.
  - split; [intros _ [] | reflexivity].
  - destruct (String.eqb (selection_name x) n) eqn:E.
    + apply String.eqb_eq in E. split; [discriminate | intros H; exfalso; apply H; now left].
    + apply String.eqb_neq in E. rewrite IH. split.
      * intros H [H1 | H2]; [now apply E | now apply H].
      * intros H H1. apply H. now right.
Qed.

(** The document text is the printed form of the operation, with the variable
    types read from the text itself. *)
Lemma text_is_printed_operation :
  GraphQL.print_operation (operationKind (params node))
    (GraphQL.variable_definitions query_text) (operation node) = query_text.
Proof. vm_compute. reflexivity. Qed.

(** The response type and the selection tree name the same fields, level by
    level and in the same order. *)
Lemma response_type_matches_selections :
  TypeScript.ts_shape TypeScript.DatasetQuery_data
  = map TypeScript.selection_shape (operation_selections (operation node)).
Proof. vm_compute. reflexivity. Qed.

(** ** C1 *)

(** C1. In every execution of the module the request declares exactly the two
    variables [name] and [view], in the operation and in the fragment; the
    document text declares [$name: String!] (non-null, so required) and
    [$view: JSONArray] (nullable); the variables type has [name: string]
    required and [view] optional and nullable; and the selections refer to no
    other variable. *)
Theorem C1_request_variables (Env : Type) (env : Env) :
  let r := evaluate_module env in
  map argument_definition_name (operation_argumentDefinitions (operation r))
    = ["name"; "view"]
  /\ map argument_definition_name (fragment_argumentDefinitions (fragment r))
    = ["name"; "view"]
  /\ map argument_definition_default (operation_argumentDefinitions (operation r))
    = [None; None]
  /\ (exists t, text (params r) = Some t
        /\ GraphQL.variable_definitions t
           = [("name", "String!"); ("view", "JSONArray")]
        /\ map (fun d => GraphQL.non_null (snd d)) (GraphQL.variable_definitions t)
           = [true; false])
  /\ TypeScript.properties TypeScript.DatasetQuery_variables
     = [ TypeScript.required "name" TypeScript.TsString;
         TypeScript.optional "view" (TypeScript.TsOrNull TypeScript.TsArray) ]
  /\ flat_map used_variables (operation_selections (operation r))
     = ["name"; "view"].
Proof.
  rewrite evaluate_module_node. cbv zeta.
  repeat split.
  exists query_text. repeat split; vm_compute; reflexivity.
Qed.

(** ** C2 *)

(** C2, as stated, fails: the dataset selection set has a field,
    [lastLoadedAt], that the spec's enumeration does not contain, so the two
    do not have the same members. *)
Lemma C2_counterexample :
  ~ (forall n : string,
       In n (field_names dataset_selections) <-> In n Spec.contract_fields).
Proof.
  intros H.
  assert (Hsel : In "lastLoadedAt" (field_names dataset_selections)).
  { vm_compute. do 10 right. left. reflexivity. }
  apply H in Hsel. vm_compute in Hsel.
  repeat (destruct Hsel as [Hsel | Hsel]; [discriminate Hsel|]).
  exact Hsel.
Qed.

(** C2, amended. The dataset selection set is the ten fields the spec
    enumerates followed by three more, [lastLoadedAt], [createdAt] and
    [version], and nothing else.  The three are scalar fields, without alias,
    arguments or storage key; of the ten, [id], [name] and [mediaType] are
    scalar and the other seven are linked fields.  The response type lists
    the same thirteen. *)
Theorem C2_dataset_selection_set :
  field_names dataset_selections
    = (Spec.contract_fields ++ ["lastLoadedAt"; "createdAt"; "version"])%list
  /\ (forall s, In s dataset_selections ->
        In (selection_name s) Spec.contract_fields
        \/ In (selection_name s) ["lastLoadedAt"; "createdAt"; "version"])
  /\ (forall n, In n Spec.contract_fields ->
        exists s, find_field n dataset_selections = Some s)
  /\ NoDup (field_names dataset_selections)
  /\ field_names (operation_selections (operation node)) = ["dataset"]
  /\ TypeScript.ts_shape TypeScript.DatasetQuery_data
     = map TypeScript.selection_shape (operation_selections (operation node))
  /\ skipn (length Spec.contract_fields) dataset_selections
     = [ ScalarField None None "lastLoadedAt" None;
         ScalarField None None "createdAt" None;
         ScalarField None None "version" None ]
  /\ map is_scalar dataset_selections
     = [ true; true; true;
         false; false; false; false; false; false; false;
         true; true; true ]
  /\ (forall s, In s dataset_selections ->
        In (selection_name s) ["lastLoadedAt"; "createdAt"; "version"] ->
        s = ScalarField None None (selection_name s) None).
Proof.
  assert (Hnames : field_names dataset_selections
            = (Spec.contract_fields ++ ["lastLoadedAt"; "createdAt"; "version"])%list)
    by reflexivity.
  split; [exact Hnames|].
  split; [|split; [|split; [|split; [|split; [|split; [|split]]]]]].
  - intros s Hs. apply in_app_or. rewrite <- Hnames.
    unfold field_names. now apply in_map.
  - intros n Hn.
    destruct (find_field n dataset_selections) as [s|] eqn:E; [now exists s|].
    exfalso. apply find_field_none in E. apply E. rewrite Hnames.
    apply in_or_app. now left.
  - rewrite Hnames. vm_compute.
    repeat (constructor; [intros Hin; repeat (destruct Hin as [Hin | Hin]; [discriminate Hin|]); exact Hin|]).
    constructor.
  - reflexivity.
  - exact response_type_matches_selections.
  - reflexivity.
  - reflexivity.
  - intros s Hs Hn. vm_compute in Hs.
    repeat (destruct Hs as [Hs | Hs];
            [subst s; try reflexivity; exfalso; cbn in Hn;
             repeat (destruct Hn as [Hn | Hn]; [discriminate Hn|]); exact Hn|]).
    destruct Hs.
Qed.

(** ** C3 *)

(** A list without repetition that fits inside another is no longer than it. *)
Lemma no_four_names (l : list string) :
  NoDup l -> 4 < length l ->
  ~ exists a b c d : string, forall n, In n l <-> In n [a; b; c; d].
Proof.
  intros Hnd Hlen [a [b [c [d H]]]].
  assert (Hle : length l <= length [a; b; c; d]).
  { apply NoDup_incl_length; [exact Hnd|]. intros n Hn. now apply H. }
  cbn in Hle. lia.
Qed.

Lemma v2_names_nodup : NoDup (field_names v2).
Proof.
  vm_compute.
  repeat (constructor; [intros Hin; repeat (destruct Hin as [Hin | Hin]; [discriminate Hin|]); exact Hin|]).
  constructor.
Qed.

(** C3, as stated, fails: an entry of [sampleFields] also selects [dbField],
    which is none of the spec's four components; and the selected names are
    five distinct ones, so no set of four names is the selected set. *)
Lemma C3_counterexample :
  ~ (forall n : string,
       In n (field_names sample_field_selections) <-> In n Spec.field_components)
  /\ ~ (exists a b c d : string, forall n : string,
          In n (field_names sample_field_selections) <-> In n [a; b; c; d]).
Proof.
  split.
  - intros H.
    assert (Hsel : In "dbField" (field_names sample_field_selections)).
    { vm_compute. do 4 right. left. reflexivity. }
    apply H in Hsel. vm_compute in Hsel.
    repeat (destruct Hsel as [Hsel | Hsel]; [discriminate Hsel|]).
    exact Hsel.
  - apply no_four_names.
    + exact v2_names_nodup.
    + vm_compute. lia.
Qed.

(** C3, amended. Every entry of [sampleFields] and of [frameFields] selects
    exactly five scalar fields: the spec's four, [ftype], [subfield],
    [embeddedDocType] and [path], and then [dbField]; the response type of an
    entry has the same five properties. *)
Theorem C3_schema_field_components :
  field_names sample_field_selections
    = (Spec.field_components ++ ["dbField"])%list
  /\ field_names frame_field_selections
    = (Spec.field_components ++ ["dbField"])%list
  /\ forallb is_scalar sample_field_selections = true
  /\ forallb is_scalar frame_field_selections = true
  /\ map (@TypeScript.prop_name _) (TypeScript.properties TypeScript.field_type)
     = (Spec.field_components ++ ["dbField"])%list.
Proof. repeat split. Qed.

(** ** C4 *)

(** C4. A record of [evaluations] and a record of [brainMethods] each select
    [key], [version], [timestamp], [viewStages] and [config]; the first four
    are scalars; the evaluation config selects [cls], [predField], [gtField],
    the brain-run config [cls], [embeddingsField], [method], [patchesField]. *)
Theorem C4_run_records :
  (exists sel, run_selections "evaluations" = Some sel
      /\ field_names sel = ["key"; "version"; "timestamp"; "viewStages"; "config"]
      /\ map is_scalar sel = [true; true; true; true; false])
  /\ (exists sel, run_selections "brainMethods" = Some sel
      /\ field_names sel = ["key"; "version"; "timestamp"; "viewStages"; "config"]
      /\ map is_scalar sel = [true; true; true; true; false])
  /\ (exists sel, run_config_selections "evaluations" = Some sel
      /\ field_names sel = ["cls"; "predField"; "gtField"]
      /\ forallb is_scalar sel = true)
  /\ (exists sel, run_config_selections "brainMethods" = Some sel
      /\ field_names sel = ["cls"; "embeddingsField"; "method"; "patchesField"]
      /\ forallb is_scalar sel = true).
Proof.
  repeat split; eexists; (split; [reflexivity|]); split; reflexivity.
Qed.

(** ** C8 *)

(** C8. The fragment and the operation of the request have the same
    selections and the same argument definitions, so a scalar is read by the
    fragment exactly when the operation fetches it; and the document text is
    what printing those selections gives. *)
Theorem C8_fragment_operation_agree :
  fragment_selections (fragment node) = operation_selections (operation node)
  /\ fragment_selections (fragment node) = v9
  /\ fragment_argumentDefinitions (fragment node)
     = operation_argumentDefinitions (operation node)
  /\ fragment_name (fragment node) = operation_name (operation node)
  /\ (forall p : list string,
        In p (all_leaf_paths (fragment_selections (fragment node)))
        <-> In p (all_leaf_paths (operation_selections (operation node))))
  /\ GraphQL.print_operation "query" (GraphQL.variable_definitions query_text)
       (Operation (fragment_argumentDefinitions (fragment node))
                  (fragment_name (fragment node))
                  (fragment_selections (fragment node)))
     = query_text.
Proof.
  split; [reflexivity|]. split; [reflexivity|]. split; [reflexivity|].
  split; [reflexivity|]. split.
  - intros p. split; intros H; exact H.
  - exact text_is_printed_operation.
Qed.

(** ** C9 *)

(** C9. [sampleFields] and [frameFields] have the same selection list, the
    five scalars [ftype], [subfield], [embeddedDocType], [path], [dbField];
    the [targets] of [maskTargets] and [defaultMaskTargets] have the same
    selection list, the two scalars [target] and [value]. *)
Theorem C9_shared_selection_lists :
  select_path ["sampleFields"] dataset_selections
    = select_path ["frameFields"] dataset_selections
  /\ select_path ["sampleFields"] dataset_selections = Some v2
  /\ field_names v2 = ["ftype"; "subfield"; "embeddedDocType"; "path"; "dbField"]
  /\ forallb is_scalar v2 = true
  /\ select_path ["maskTargets"; "targets"] dataset_selections
    = select_path ["defaultMaskTargets"] dataset_selections
  /\ select_path ["defaultMaskTargets"] dataset_selections = Some v3
  /\ field_names v3 = ["target"; "value"]
  /\ forallb is_scalar v3 = true.
Proof. repeat split. Qed.

End DatasetQueryFacts.

(* ================================================================== *)
(** * Properties of rendering *)

Module ReactFacts.
Import React.

Section Induction.

Variables (T World : Type) (P : ReactNode T World -> Prop).

Hypothesis P_Text : forall s, P (Text s).
Hypothesis P_HostElement :
  forall tag children, Forall P children -> P (HostElement tag children).
Hypothesis P_Nodes : forall children, Forall P children -> P (Nodes children).
Hypothesis P_Provider : forall value children, P children -> P (Provider value children).
Hypothesis P_FunctionComponent :
  forall body, (forall b w, P (fst (body b w))) -> P (FunctionComponent body).

(** Induction on a tree: the children of an element, and whatever node a
    component body returns, are smaller. *)
Fixpoint ReactNode_induction (n : ReactNode T World) : P n :=
  match n with
  | Text s => P_Text s
  | HostElement tag children =>
      P_HostElement tag
        ((fix all (l : list (ReactNode T World)) : Forall P l :=
            match l with
            | [] => Forall_nil P
            | x :: rest => Forall_cons x (ReactNode_induction x) (all rest)
            end) children)
  | Nodes children =>
      P_Nodes
        ((fix all (l : list (ReactNode T World)) : Forall P l :=
            match l with
            | [] => Forall_nil P
            | x :: rest => Forall_cons x (ReactNode_induction x) (all rest)
            end) children)
  | Provider value children =>
      P_Provider value (ReactNode_induction children)
  | FunctionComponent body =>
      P_FunctionComponent body
        (fun b w =>
           match body b w as p return P (fst p) with
           | (n', _) => ReactNode_induction n'
           end)
  end.

End Induction.

Section Calls.

Variables (T World : Type).

(** A call recorded at [d] providers deep, under binding [b']: it is not above
    [depth], and if it is at [depth] it happened under [b]. *)
Definition within (depth : nat) (b : Binding T) (r : Rendered T) : Prop :=
  forall d b', In (d, b') (calls r) -> depth <= d /\ (d = depth -> b' = b).

Lemma within_nothing (depth : nat) (b : Binding T) : within depth b nothing.
Proof. intros d b' []. Qed.

Lemma within_both (depth : nat) (b : Binding T) (r1 r2 : Rendered T) :
  within depth b r1 -> within depth b r2 -> within depth b (both r1 r2).
Proof.
  intros H1 H2 d b' Hin. cbn in Hin. apply in_app_or in Hin.
  destruct Hin as [Hin | Hin]; [now apply H1 | now apply H2].
Qed.

Lemma render_list_within (depth : nat) (b : Binding T)
  (f : ReactNode T World -> World -> Rendered T * World)
  (l : list (ReactNode T World)) :
  Forall (fun n => forall w, within depth b (fst (f n w))) l ->
  forall w, within depth b (fst (render_list f l w)).
Proof.
  induction 1 as [|n rest Hn _ IH]; intros w; cbn.
  - apply within_nothing.
  - specialize (Hn w). destruct (f n w) as [r1 w1].
    specialize (IH w1). destruct (render_list f rest w1) as [r2 w2].
    cbn in *. now apply within_both.
Qed.

(** Every component call that rendering a node records obeys [within]: only a
    provider changes the binding, and it does so one level further down. *)
Lemma render_within (n : ReactNode T World) :
  forall depth b w, within depth b (fst (render depth b n w)).
Proof.
  induction n as [s | tag children IH | children IH | value children IH | body IH]
    using ReactNode_induction; intros depth b w.
  - intros d b' [].
  - cbn.
    assert (H : within depth b (fst (render_list (render depth b) children w))).
    { apply render_list_within.
      eapply Forall_impl; [|exact IH]. intros n Hn w'. apply Hn. }
    destruct (render_list (render depth b) children w) as [r w']. exact H.
  - cbn. apply render_list_within.
    eapply Forall_impl; [|exact IH]. intros n Hn w'. apply Hn.
  - cbn. intros d b' Hin.
    destruct (IH (S depth) (Some value) w d b' Hin) as [Hle _].
    split; [lia | intros ->; lia].
  - cbn. specialize (IH b w). destruct (body b w) as [n' w1]. cbn in IH.
    specialize (IH depth b w1). destruct (render depth b n' w1) as [r w2].
    cbn in *. intros d b' [Heq | Hin].
    + injection Heq as <- <-. split; [lia | reflexivity].
    + now apply IH.
Qed.

(** A list of nodes is rendered under the binding of the list: a provider
    among them changes nothing for its siblings. *)
Lemma render_nodes_cons (depth : nat) (b : Binding T)
  (n : ReactNode T World) (rest : list (ReactNode T World)) (w : World) :
  render depth b (Nodes (n :: rest)) w
  = let (r1, w1) := render depth b n w in
    let (r2, w2) := render depth b (Nodes rest) w1 in
    (both r1 r2, w2).
Proof. reflexivity. Qed.

End Calls.

End ReactFacts.

(* ================================================================== *)
(** * Properties of the group context *)

Module GroupFacts.
Import React Group ReactFacts.

Section Facts.

Variables (Lookers World : Type).

Abbreviation Node := (ReactNode (GroupContext Lookers World) World).
Abbreviation Ctx := (GroupContext Lookers World).

(** Rendering the provider element: the component is called once, and its
    children are rendered one provider further down under the new value. *)
Lemma render_provider_element (f : Callback Lookers World) (c : Node)
  (depth : nat) (b : Binding Ctx) (w : World) :
  render depth b (GroupContextProvider_element f c) w
  = let (r, w') := render (S depth) (Some {| lookerRefCallback := f |}) c w in
    ({| dom := dom r; calls := (depth, b) :: calls r |}, w').
Proof. reflexivity. Qed.

(** A consumer placed directly under the provider renders what its body makes
    of the provided value. *)
Lemma consumer_under_provider (f : Callback Lookers World) (k : Ctx -> Node)
  (depth : nat) (b : Binding Ctx) (w : World) :
  dom (fst (render depth b (GroupContextProvider_element f (Consumer k)) w))
  = dom (fst (render (S depth) (Some {| lookerRefCallback := f |})
                     (k {| lookerRefCallback := f |}) w)).
Proof.
  rewrite render_provider_element. cbn.
  destruct (render (S depth) (Some {| lookerRefCallback := f |})
                   (k {| lookerRefCallback := f |}) w) as [r w'].
  reflexivity.
Qed.

(** C5, amended. Render [GroupContextProvider] with [lookerRefCallback = f]
    around any children, at any depth, under any binding and in any state.
    Every component called below it whose nearest provider is this one
    ([d = S depth]) gets from [useGroupContext()] a context value whose
    [lookerRefCallback] is [f]. *)
Theorem C5_callback_reaches_consumers
  (f : Callback Lookers World) (c : Node)
  (depth : nat) (b : Binding Ctx) (w : World)
  (d : nat) (b' : Binding Ctx) :
  In (d, b') (calls (fst (render depth b (GroupContextProvider_element f c) w))) ->
  d = S depth ->
  lookerRefCallback (useGroupContext b') = f.
Proof.
  rewrite render_provider_element.
  pose proof (@render_within Ctx World c (S depth)
                (Some {| lookerRefCallback := f |}) w) as Hw.
  destruct (render (S depth) (Some {| lookerRefCallback := f |}) c w) as [r w'].
  cbn in *. intros [Heq | Hin] Hd.
  - injection Heq as Heq _. lia.
  - destruct (Hw d b' Hin) as [_ Hb]. rewrite (Hb Hd). reflexivity.
Qed.

(** C6. With no provider above, [useGroupContext()] returns the default
    options, and their [lookerRefCallback], given any looker in any state,
    returns [undefined] and leaves the state as it was; a root consumer is
    called under no binding and so gets this default. *)
Theorem C6_default_callback_is_noop (looker : Lookers) (w : World) :
  lookerRefCallback (useGroupContext None) looker w = (undefined, w)
  /\ useGroupContext None = @defaultOptions Lookers World
  /\ defaultValue (@groupContext Lookers World) = defaultOptions
  /\ (forall (k : Ctx -> Node) (w0 : World),
        render_root (Consumer k) w0
        = let (r, w1) := render 0 None (k defaultOptions) w0 in
          ({| dom := dom r; calls := (0, None) :: calls r |}, w1)).
Proof.
  repeat split.
Qed.

(** A context value is its one field. *)
Lemma GroupContext_one_field (v v' : Ctx) :
  lookerRefCallback v = lookerRefCallback v' -> v = v'.
Proof. destruct v, v'; cbn; intros ->; reflexivity. Qed.

(** C10. For every props value (and binding and state): the component returns
    the provider of [groupContext] around exactly [children], with the value
    [{ lookerRefCallback }] taken from the props; a context value has no other
    field; the state is returned as it was received; rendering the element
    adds no host output to that of the children; a sibling rendered after
    it is rendered under the binding that was there before; and the result
    depends on the props through [children] and [lookerRefCallback] only. *)
Theorem C10_provider_changes_only_the_binding
  (props : GroupContextProviderProps Lookers World)
  (b : Binding Ctx) (w : World) :
  fst (GroupContextProvider props b w)
    = Provider {| lookerRefCallback := props_lookerRefCallback props |}
               (children props)
  /\ snd (GroupContextProvider props b w) = w
  /\ (forall v : Ctx,
        lookerRefCallback v = props_lookerRefCallback props ->
        v = {| lookerRefCallback := props_lookerRefCallback props |})
  /\ (forall depth : nat,
        render depth b (FunctionComponent (GroupContextProvider props)) w
        = let (r, w') :=
            render (S depth)
                   (Some {| lookerRefCallback := props_lookerRefCallback props |})
                   (children props) w in
          ({| dom := dom r; calls := (depth, b) :: calls r |}, w'))
  /\ (forall (depth : nat) (sibling : Node),
        render depth b
          (Nodes [FunctionComponent (GroupContextProvider props); sibling]) w
        = let (r1, w1) :=
            render depth b (FunctionComponent (GroupContextProvider props)) w in
          let (r2, w2) := render depth b sibling w1 in
          (both r1 (both r2 nothing), w2))
  /\ (forall props' : GroupContextProviderProps Lookers World,
        children props' = children props ->
        props_lookerRefCallback props' = props_lookerRefCallback props ->
        GroupContextProvider props' = GroupContextProvider props).
Proof.
  split; [reflexivity|]. split; [reflexivity|]. split; [|split; [|split]].
  - intros v Hv. apply GroupContext_one_field. exact Hv.
  - intros depth. reflexivity.
  - intros depth sibling. rewrite render_nodes_cons.
    destruct (render depth b (FunctionComponent (GroupContextProvider props)) w)
      as [r1 w1].
    rewrite render_nodes_cons.
    destruct (render depth b sibling w1) as [r2 w2]. reflexivity.
  - intros props' Hc Hf. unfold GroupContextProvider. rewrite Hc, Hf. reflexivity.
Qed.

End Facts.

(** ** The concrete world *)

Import Registry.

Lemma register_is_not_the_default :
  lookerRefCallback (@defaultOptions Lookers World) <> register.
Proof.
  intros H.
  assert (H0 : lookerRefCallback (@defaultOptions Lookers World) 0 [] = register 0 [])
    by (rewrite H; reflexivity).
  discriminate H0.
Qed.

(** C5, as stated, fails: in [two_levels] the consumer is a descendant of the
    provider of [register], yet a nearer provider of the default callback
    lies between them, and [useGroupContext()] gives the consumer that
    nearer value. *)
Lemma C5_counterexample :
  ~ (forall (d : nat) (b' : Binding (GroupContext Lookers World)),
       In (d, b') (calls (fst (render_root two_levels []))) ->
       0 < d ->
       lookerRefCallback (useGroupContext b') = register).
Proof.
  intros H.
  apply register_is_not_the_default.
  apply (H 2 (Some defaultOptions)).
  - cbn. right. right. left. reflexivity.
  - lia.
Qed.

(** The amended C5 at [one_level]: the consumer under the provider of
    [register] is called at depth 1 and gets [register]. *)
Lemma C5_witness :
  In (1, Some {| lookerRefCallback := register |})
     (calls (fst (render_root one_level [])))
  /\ lookerRefCallback
       (useGroupContext (Some {| lookerRefCallback := register |}))
     = register.
Proof.
  split.
  - cbn. right. left. reflexivity.
  - apply (@C5_callback_reaches_consumers Lookers World register
             (Nodes [leaf]) 0 None [] 1
             (Some {| lookerRefCallback := register |})).
    + cbn. right. left. reflexivity.
    + reflexivity.
Defined.

End GroupFacts.

(* ================================================================== *)
(** * Further properties of rendering under the group context *)

Module RenderingFacts.
Import React Group ReactFacts ReactTrees.

Section Grounded.

Variables (T World : Type).

(** A binding is absent exactly at depth 0. *)
Definition grounded (r : Rendered T) : Prop :=
  forall d b', In (d, b') (calls r) -> (d = 0 <-> b' = None).

Lemma grounded_both (r1 r2 : Rendered T) :
  grounded r1 -> grounded r2 -> grounded (both r1 r2).
Proof.
  intros H1 H2 d b' Hin. cbn in Hin. apply in_app_or in Hin.
  destruct Hin as [Hin | Hin]; [now apply H1 | now apply H2].
Qed.

Lemma render_list_grounded
  (f : ReactNode T World -> World -> Rendered T * World)
  (l : list (ReactNode T World)) :
  Forall (fun n => forall w, grounded (fst (f n w))) l ->
  forall w, grounded (fst (render_list f l w)).
Proof.
  induction 1 as [|n rest Hn _ IH]; intros w; cbn.
  - intros d b' [].
  - specialize (Hn w). destruct (f n w) as [r1 w1].
    specialize (IH w1). destruct (render_list f rest w1) as [r2 w2].
    cbn in *. now apply grounded_both.
Qed.

(** Started where the binding is absent exactly at depth 0, rendering keeps
    it so for every component it calls. *)
Lemma render_grounded (n : ReactNode T World) :
  forall depth (b : Binding T) w,
    (depth = 0 <-> b = None) -> grounded (fst (render depth b n w)).
Proof.
  induction n as [s | tag children IH | children IH | value children IH | body IH]
    using ReactNode_induction; intros depth b w Hb.
  - intros d b' [].
  - cbn.
    assert (H : grounded (fst (render_list (render depth b) children w))).
    { apply render_list_grounded.
      eapply Forall_impl; [|exact IH]. intros n Hn w'. now apply Hn. }
    destruct (render_list (render depth b) children w) as [r w']. exact H.
  - cbn. apply render_list_grounded.
    eapply Forall_impl; [|exact IH]. intros n Hn w'. now apply Hn.
  - cbn. apply IH. split; [lia | discriminate].
  - cbn. specialize (IH b w). destruct (body b w) as [n' w1]. cbn in IH.
    specialize (IH depth b w1 Hb). destruct (render depth b n' w1) as [r w2].
    cbn in *. intros d b' [Heq | Hin].
    + injection Heq as <- <-. exact Hb.
    + now apply IH.
Qed.

(** A list of quiet nodes is rendered without a change of state. *)
Lemma render_list_quiet (depth : nat) (b : Binding T)
  (l : list (ReactNode T World)) :
  Forall (fun n => quiet n ->
            forall depth b w, snd (render depth b n w) = w) l ->
  Forall (@quiet T World) l ->
  forall w, snd (render_list (render depth b) l w) = w.
Proof.
  induction 1 as [|n rest Hn _ IH]; intros Hq w; cbn; [reflexivity|].
  inversion Hq as [|? ? Hqn Hqrest]; subst.
  specialize (Hn Hqn depth b w). destruct (render depth b n w) as [r1 w1].
  specialize (IH Hqrest w1). destruct (render_list (render depth b) rest w1) as [r2 w2].
  cbn in *. congruence.
Qed.

(** Rendering a quiet tree returns the state it started from. *)
Lemma render_quiet (n : ReactNode T World) :
  quiet n -> forall depth (b : Binding T) w, snd (render depth b n w) = w.
Proof.
  induction n as [s | tag children IH | children IH | value children IH | body IH]
    using ReactNode_induction; intros Hq depth b w.
  - reflexivity.
  - inversion Hq as [| ? ? Hc | | |]; subst. cbn.
    pose proof (render_list_quiet depth b IH Hc w) as H.
    destruct (render_list (render depth b) children w) as [r w']. exact H.
  - inversion Hq as [| | ? Hc | |]; subst. cbn.
    exact (render_list_quiet depth b IH Hc w).
  - inversion Hq as [| | | ? ? Hc |]; subst. cbn. now apply IH.
  - inversion Hq as [| | | | ? Hbody]; subst. cbn.
    destruct (Hbody b w) as [Hw Hn]. specialize (IH b w Hn depth b).
    destruct (body b w) as [n' w1]. cbn in *. subst w1.
    specialize (IH w). destruct (render depth b n' w) as [r w2]. exact IH.
Qed.

(** A list of static nodes renders to one result, whatever the depth, the
    binding and the state, calls no component and keeps the state. *)
Lemma render_list_static (l : list (ReactNode T World)) :
  Forall (fun n => static n = true ->
            exists r, calls r = [] /\
              forall depth (b : Binding T) w, render depth b n w = (r, w)) l ->
  forallb (@static T World) l = true ->
  exists r, calls r = [] /\
    forall depth (b : Binding T) w, render_list (render depth b) l w = (r, w).
Proof.
  induction 1 as [|n rest Hn _ IH]; intros Hs; cbn in *.
  - exists nothing. split; reflexivity.
  - apply andb_prop in Hs. destruct Hs as [Hsn Hsrest].
    destruct (Hn Hsn) as [r1 [Hc1 Hr1]]. destruct (IH Hsrest) as [r2 [Hc2 Hr2]].
    exists (both r1 r2). split.
    + cbn. rewrite Hc1, Hc2. reflexivity.
    + intros depth b w. rewrite Hr1, Hr2. reflexivity.
Qed.

Lemma render_static (n : ReactNode T World) :
  static n = true ->
  exists r, calls r = [] /\
    forall depth (b : Binding T) w, render depth b n w = (r, w).
Proof.
  induction n as [s | tag children IH | children IH | value children IH | body IH]
    using ReactNode_induction; intros Hs.
  - eexists. split; [|intros; reflexivity]. reflexivity.
  - cbn in Hs. destruct (render_list_static IH Hs) as [r [Hc Hr]].
    exists {| dom := [DomElement tag (dom r)]; calls := calls r |}.
    split; [exact Hc|]. intros depth b w. cbn. rewrite Hr. reflexivity.
  - cbn in Hs. destruct (render_list_static IH Hs) as [r [Hc Hr]].
    exists r. split; [exact Hc|]. intros depth b w. cbn. apply Hr.
  - cbn in Hs. destruct (IH Hs) as [r [Hc Hr]].
    exists r. split; [exact Hc|]. intros depth b w. cbn. apply Hr.
  - discriminate Hs.
Qed.

End Grounded.

End RenderingFacts.

(* ================================================================== *)
(** * Further properties of the group context *)

Module GroupRendering.
Import React Group ReactFacts ReactTrees RenderingFacts GroupFacts.

Section Facts.

Variables (Lookers World : Type).

Abbreviation Node := (ReactNode (GroupContext Lookers World) World).
Abbreviation Ctx := (GroupContext Lookers World).


(** [d] counts every provider of [groupContext] above a component, whether it
    was written as [GroupContextProvider] or as [groupContext.Provider]. *)

(** X2. Render any tree from the root.  A component with no provider of
    [groupContext] above it, wherever it sits in the tree, is called under no
    binding: [useGroupContext()] gives it the default options, whose callback
    returns [undefined] and leaves every state as it is. *)
Theorem no_provider_means_default
  (n : Node) (w : World) (d : nat) (b' : Binding Ctx) :
  In (d, b') (calls (fst (render_root n w))) ->
  d = 0 ->
  b' = None
  /\ useGroupContext b' = defaultOptions
  /\ forall (looker : Lookers) (w' : World),
       lookerRefCallback (useGroupContext b') looker w' = (undefined, w').
Proof.
  intros Hin Hd.
  assert (Hg : d = 0 <-> b' = None).
  { apply (@render_grounded Ctx World n 0 None w); [|exact Hin].
    split; reflexivity. }
  apply Hg in Hd. subst b'. split; [reflexivity|]. split; [reflexivity|].
  intros; reflexivity.
Qed.

(** X3. If no component among the children writes state while it renders,
    rendering [GroupContextProvider] around them writes none either, whatever
    the callback does when called: rendering never calls the callback. *)
Theorem provider_render_writes_no_state
  (f : Callback Lookers World) (c : Node)
  (depth : nat) (b : Binding Ctx) (w : World) :
  quiet c ->
  snd (render depth b (GroupContextProvider_element f c) w) = w.
Proof.
  intros Hq. apply render_quiet.
  apply quiet_FunctionComponent. intros b0 w0. split; [reflexivity|].
  cbn. apply quiet_Provider. exact Hq.
Qed.

(** X4. Around children that contain no component, [GroupContextProvider] is
    invisible: the host output is that of the children alone, for every
    callback, and the only component called is the provider itself. *)
Theorem provider_is_transparent_for_static_children
  (f : Callback Lookers World) (c : Node)
  (depth : nat) (b : Binding Ctx) (w : World) :
  static c = true ->
  dom (fst (render depth b (GroupContextProvider_element f c) w))
    = dom (fst (render depth b c w))
  /\ calls (fst (render depth b (GroupContextProvider_element f c) w))
    = [(depth, b)]
  /\ snd (render depth b (GroupContextProvider_element f c) w) = w.
Proof.
  intros Hs. destruct (render_static c Hs) as [r [Hc Hr]].
  rewrite render_provider_element, !Hr. cbn. rewrite Hc. repeat split.
Qed.

End Facts.

(** ** The concrete world *)

Import Registry.


(** In [beside] the second consumer stands next to the provider of
    [register], not below it: it is the third component called. *)
Lemma no_provider_means_default_witness :
  nth_error (calls (fst (render_root RegistryTrees.beside []))) 2 = Some (0, None)
  /\ useGroupContext None = @defaultOptions Lookers World
  /\ forall (looker : Lookers) (w' : World),
       lookerRefCallback (useGroupContext None) looker w' = (undefined, w').
Proof.
  split; [reflexivity|].
  apply (@no_provider_means_default Lookers World RegistryTrees.beside [] 0 None).
  - cbn. right. right. left. reflexivity.
  - reflexivity.
Defined.

(** A bare [groupContext.Provider] counts as a provider: the consumer below
    it is one level down and gets the value it supplies. *)
Lemma bare_provider_supplies_its_value :
  calls (fst (render_root RegistryTrees.bare_provider []))
  = [(1, Some {| lookerRefCallback := register |})].
Proof. reflexivity. Qed.

Lemma leaf_is_quiet : quiet leaf.
Proof.
  apply quiet_FunctionComponent. intros b w. split; [reflexivity|].
  cbn. apply quiet_Text.
Qed.

Lemma provider_render_writes_no_state_witness :
  snd (render_root one_level [7]) = [7].
Proof.
  apply (@provider_render_writes_no_state Lookers World register
           (Nodes [leaf]) 0 None [7]).
  apply quiet_Nodes. constructor; [exact leaf_is_quiet | constructor].
Defined.

Lemma provider_is_transparent_witness :
  dom (fst (render 0 None
              (GroupContextProvider_element register
                 (HostElement "div" [Text "looker"])) ([] : World)))
    = dom (fst (render 0 None
                  (HostElement "div"
                     [Text "looker" : ReactNode (GroupContext Lookers World) World])
                  ([] : World)))
  /\ calls (fst (render 0 None
              (GroupContextProvider_element register
                 (HostElement "div" [Text "looker"])) ([] : World)))
    = [(0, None)]
  /\ snd (render 0 None
              (GroupContextProvider_element register
                 (HostElement "div" [Text "looker"])) ([] : World)) = [].
Proof.
  apply (@provider_is_transparent_for_static_children Lookers World register
           (HostElement "div" [Text "looker"]) 0 None []).
  reflexivity.
Defined.

End GroupRendering.

(* ================================================================== *)
(** * The response type describes what the selections fetch *)

Module TypingFacts.
Import Relay TypeScript Typing DatasetQuery.

(** A linked field that conforms has conforming sub-selections. *)
Lemma conforms_children (t : TsType) (s : Selection) :
  conforms t s = true ->
  kind_agrees t s = true
  /\ (is_scalar s = false ->
      conforms_all (object_properties t) (selection_children s) = true).
Proof.
  destruct s as [a ar n k | a ar c n pl sel k]; cbn [conforms]; intros H;
    apply andb_prop in H; destruct H as [Hk Hc]; split; try exact Hk.
  - discriminate.
  - intros _. exact Hc.
Qed.

Lemma scalar_type_has_no_property (t : TsType) :
  is_scalar_type t = true -> object_properties t = [].
Proof.
  induction t as [| | | alias | t' IH | t' IH | props]; cbn; intros H;
    try reflexivity; try (now apply IH).
  discriminate H.
Qed.

(** Conforming lists are searched alike: a field is found exactly when the
    property of its name is, and the two conform. *)
Lemma find_field_property (n : string) (ss : list Selection) :
  forall props, conforms_all props ss = true ->
  match find_field n ss, find_property n props with
  | Some s, Some p => conforms (prop_type p) s = true
  | None, None => True
  | _, _ => False
  end.
Proof.
  induction ss as [|s rest IH]; intros [|p props'] H; cbn in H; try discriminate.
  - exact I.
  - apply andb_prop in H. destruct H as [H Hrest].
    apply andb_prop in H. destruct H as [Hname Hc].
    apply String.eqb_eq in Hname. cbn. rewrite Hname.
    destruct (String.eqb (selection_name s) n); [exact Hc | now apply IH].
Qed.

Lemma field_at_nil (p : list string) : field_at p [] = None.
Proof. destruct p; reflexivity. Qed.

Lemma type_at_no_property (p : list string) (t : TsType) :
  object_properties t = [] -> p <> [] -> type_at p t = None.
Proof.
  intros Ht Hp. destruct p as [|n rest]; [contradiction|]. cbn. rewrite Ht. reflexivity.
Qed.

(** From selections to types. *)
Lemma conforming_field_has_type (p : list string) :
  forall (ss : list Selection) (t0 : TsType) (s : Selection),
    conforms_all (object_properties t0) ss = true ->
    field_at p ss = Some s ->
    exists t, type_at p t0 = Some t /\ conforms t s = true.
Proof.
  induction p as [|n rest IH]; intros ss t0 s Hc Hf; [discriminate|].
  cbn in Hf. cbn [type_at].
  pose proof (find_field_property n ss _ Hc) as Hfind.
  destruct (find_field n ss) as [s0|]; [|discriminate].
  destruct (find_property n (object_properties t0)) as [pr|]; [|contradiction].
  destruct rest as [|m rest'].
  - injection Hf as <-. exists (prop_type pr). split; [reflexivity | exact Hfind].
  - destruct (conforms_children _ _ Hfind) as [_ Hch].
    destruct s0 as [a ar n0 k | a ar c n0 pl sel k].
    + cbn in Hf. discriminate.
    + apply (IH sel (prop_type pr) s); [apply Hch; reflexivity | exact Hf].
Qed.

(** From types to selections. *)
Lemma conforming_type_has_field (p : list string) :
  forall (ss : list Selection) (t0 t : TsType),
    conforms_all (object_properties t0) ss = true ->
    p <> [] ->
    type_at p t0 = Some t ->
    exists s, field_at p ss = Some s /\ conforms t s = true.
Proof.
  induction p as [|n rest IH]; intros ss t0 t Hc Hp Ht; [contradiction|].
  cbn in Ht. cbn [field_at].
  pose proof (find_field_property n ss _ Hc) as Hfind.
  destruct (find_property n (object_properties t0)) as [pr|]; [|discriminate].
  destruct (find_field n ss) as [s0|]; [|contradiction].
  destruct rest as [|m rest'].
  - cbn in Ht. injection Ht as <-. exists s0. split; [reflexivity | exact Hfind].
  - destruct (conforms_children _ _ Hfind) as [Hk Hch].
    destruct s0 as [a ar n0 k | a ar c n0 pl sel k].
    + cbn in Hk. apply scalar_type_has_no_property in Hk.
      rewrite (@type_at_no_property (m :: rest') _ Hk) in Ht by discriminate.
      discriminate.
    + apply (IH sel (prop_type pr) t); [apply Hch; reflexivity | discriminate | exact Ht].
Qed.

Lemma data_conforms :
  conforms_all (object_properties DatasetQuery_data)
               (operation_selections (operation node)) = true.
Proof. vm_compute. reflexivity. Qed.

(** X6. Every field the operation selects, at any depth, has a type in
    [DatasetQuery$data] at the same path, and the type suits the field: no
    object for a scalar field, a [ReadonlyArray] of objects for a plural
    linked field, one object for a singular linked field. *)
Theorem selected_field_is_typed (p : list string) (s : Selection) :
  field_at p (operation_selections (operation node)) = Some s ->
  exists t, type_at p DatasetQuery_data = Some t /\ kind_agrees t s = true.
Proof.
  intros Hf.
  destruct (@conforming_field_has_type p _ DatasetQuery_data s data_conforms Hf)
    as [t [Ht Hc]].
  exists t. split; [exact Ht|]. now apply conforms_children.
Qed.

(** X7. Every property that [DatasetQuery$data] declares, at any depth, is a
    field the operation selects at the same path: the type promises nothing
    that the request does not fetch. *)
Theorem typed_property_is_selected (p : list string) (t : TsType) :
  p <> [] ->
  type_at p DatasetQuery_data = Some t ->
  exists s, field_at p (operation_selections (operation node)) = Some s
            /\ kind_agrees t s = true.
Proof.
  intros Hp Ht.
  destruct (@conforming_type_has_field p _ DatasetQuery_data t data_conforms Hp Ht)
    as [s [Hs Hc]].
  exists s. split; [exact Hs|]. now apply conforms_children.
Qed.

Lemma selected_field_is_typed_witness :
  exists t, type_at ["dataset"; "brainMethods"; "config"] DatasetQuery_data = Some t
            /\ kind_agrees t
                 (LinkedField None None (Some "BrainRunConfig") "config" false
                    [ v8;
                      ScalarField None None "embeddingsField" None;
                      ScalarField None None "method" None;
                      ScalarField None None "patchesField" None ]
                    None) = true.
Proof.
  apply (@selected_field_is_typed ["dataset"; "brainMethods"; "config"]).
  reflexivity.
Defined.

Lemma typed_property_is_selected_witness :
  exists s, field_at ["dataset"; "appSidebarGroups"; "paths"]
              (operation_selections (operation node)) = Some s
            /\ kind_agrees (TsReadonlyArray TsString) s = true.
Proof.
  apply (@typed_property_is_selected ["dataset"; "appSidebarGroups"; "paths"]).
  - discriminate.
  - reflexivity.
Defined.

End TypingFacts.

(* ================================================================== *)
(** * The module's program and its environment *)

Module ProgramFacts.
Import JavaScript DatasetQueryProgram.

Section ExprInduction.

Variable P : Expr -> Prop.

Hypothesis P_null : P ENull.
Hypothesis P_bool : forall b, P (EBool b).
Hypothesis P_string : forall s, P (EString s).
Hypothesis P_array : forall items, Forall P items -> P (EArray items).
Hypothesis P_object :
  forall fields, Forall (fun f => P (snd f)) fields -> P (EObject fields).
Hypothesis P_var : forall x, P (EVar x).

(** Induction on an expression: the items of an array literal and the values
    of an object literal are smaller. *)
Fixpoint Expr_induction (e : Expr) : P e :=
  match e with
  | ENull => P_null
  | EBool b => P_bool b
  | EString s => P_string s
  | EVar x => P_var x
  | EArray items =>
      P_array
        ((fix all (l : list Expr) : Forall P l :=
            match l with
            | [] => Forall_nil P
            | x :: rest => Forall_cons x (Expr_induction x) (all rest)
            end) items)
  | EObject fields =>
      P_object
        ((fix all (l : list (string * Expr)) : Forall (fun f => P (snd f)) l :=
            match l with
            | [] => Forall_nil _
            | f :: rest =>
                Forall_cons f
                  (match f as f0 return P (snd f0) with
                   | (_, e') => Expr_induction e'
                   end)
                  (all rest)
            end) fields)
  end.

End ExprInduction.

(** A name among the locals resolves to a local. *)
Lemma local_of_name (x : string) (l : Locals) :
  existsb (String.eqb x) (map fst l) = true -> exists v, local x l = Some v.
Proof.
  induction l as [|[y v] rest IH]; cbn; [discriminate|].
  rewrite (String.eqb_sym x y).
  destruct (String.eqb y x); [intros _; now exists v | exact IH].
Qed.

(** An expression whose identifiers are all locals has the same value in
    every global environment. *)
Lemma eval_closed (e : Expr) :
  forall (l : Locals) (g1 g2 : Globals),
    closed_in (map fst l) e = true -> eval l g1 e = eval l g2 e.
Proof.
  induction e as [| b | s | items IH | fields IH | x] using Expr_induction;
    intros l g1 g2 Hc; try reflexivity.
  - cbn. f_equal. cbn in Hc.
    induction IH as [|e rest He _ IHrest]; [reflexivity|].
    cbn in Hc. apply andb_prop in Hc. destruct Hc as [Hc1 Hc2].
    rewrite (He l g1 g2 Hc1), (IHrest Hc2). reflexivity.
  - cbn. f_equal. cbn in Hc.
    induction IH as [|[k e] rest He _ IHrest]; [reflexivity|].
    cbn in Hc, He. apply andb_prop in Hc. destruct Hc as [Hc1 Hc2].
    rewrite (He l g1 g2 Hc1), (IHrest Hc2). reflexivity.
  - cbn in *. unfold resolve.
    destruct (local_of_name x l Hc) as [v ->]. reflexivity.
Qed.

(** Assigning to a local changes no name. *)
Lemma assign_names (x : string) (v : Value) (l : Locals) :
  map fst (assign x v l) = map fst l.
Proof.
  induction l as [|[y w] rest IH]; cbn; [reflexivity|].
  destruct (String.eqb y x); cbn; [reflexivity | now rewrite IH].
Qed.

Lemma run_declarations_names (g : Globals) (decls : list (string * Expr)) :
  forall l l', run_declarations g decls l = Some l' -> map fst l' = map fst l.
Proof.
  induction decls as [|[x e] rest IH]; cbn; intros l l' H.
  - injection H as <-. reflexivity.
  - destruct (eval l g e) as [v|]; [|discriminate].
    rewrite (IH _ _ H). apply assign_names.
Qed.

Lemma run_declarations_closed (decls : list (string * Expr)) :
  forall (l : Locals) (g1 g2 : Globals),
    forallb (fun d => closed_in (map fst l) (snd d)) decls = true ->
    run_declarations g1 decls l = run_declarations g2 decls l.
Proof.
  induction decls as [|[x e] rest IH]; cbn; intros l g1 g2 Hc; [reflexivity|].
  apply andb_prop in Hc. destruct Hc as [Hc1 Hc2].
  rewrite (eval_closed e l g1 g2 Hc1).
  destruct (eval l g2 e) as [v|]; [|reflexivity].
  apply IH. rewrite assign_names. exact Hc2.
Qed.

(** A function whose identifiers are all its own [var]s returns the same
    value, or fails alike, in every global environment. *)
Lemma call_closed (f : FunctionBody) (g1 g2 : Globals) :
  closed_body f = true -> call g1 f = call g2 f.
Proof.
  unfold closed_body, call. intros Hc. apply andb_prop in Hc.
  destruct Hc as [Hd Hr].
  assert (Hn : map fst (hoist (declarations f)) = map fst (declarations f)).
  { unfold hoist. rewrite map_map. reflexivity. }
  rewrite (run_declarations_closed (declarations f) (hoist (declarations f)) g1 g2)
    by (rewrite Hn; exact Hd).
  destruct (run_declarations g2 (declarations f) (hoist (declarations f)))
    as [l|] eqn:E; [|reflexivity].
  apply eval_closed. rewrite (run_declarations_names _ _ _ E), Hn. exact Hr.
Qed.

(** The function that builds [node] mentions no identifier but its own
    [var]s. *)
Lemma node_body_is_closed : closed_body node_body = true.
Proof. vm_compute. reflexivity. Qed.

(** The semantics does let a body read its environment: this one returns the
    global [window], and so differs between two environments. *)
Lemma a_body_can_read_a_global :
  let reads := {| declarations := []; returned := EVar "window" |} in
  call (fun _ => Some VNull) reads <> call (fun _ => Some (VBool true)) reads.
Proof. cbn. discriminate. Qed.

(** C7. Run the module in any two global environments: both runs succeed and
    export the same value, because no identifier in the function that builds
    [node] is anything but one of its own [var]s.  That value is the request
    [node] of this file, key for key, with the hash assigned; its
    [params.text] is the query text and its operation carries the argument
    definitions [v0] and the selections [v9]. *)
Theorem C7_node_ignores_its_environment (g1 g2 : Globals) :
  default_export g1 = default_export g2
  /\ default_export g1 = Some (request_value DatasetQuery.node)
  /\ default_export g1 = Some (request_value (DatasetQuery.evaluate_module g1))
  /\ get ["params"; "text"] (request_value DatasetQuery.node)
     = Some (VString DatasetQuery.query_text)
  /\ get ["operation"; "argumentDefinitions"] (request_value DatasetQuery.node)
     = Some (VArray (map argument_definition_value DatasetQuery.v0))
  /\ get ["operation"; "selections"] (request_value DatasetQuery.node)
     = Some (VArray (map selection_value DatasetQuery.v9))
  /\ get ["hash"] (request_value DatasetQuery.node)
     = Some (VString "671e9861e5a3128117633ab7554973b0").
Proof.
  split; [|split; [|split]].
  - unfold default_export.
    rewrite (call_closed node_body g1 g2 node_body_is_closed). reflexivity.
  - vm_compute. reflexivity.
  - rewrite DatasetQueryFacts.evaluate_module_node. vm_compute. reflexivity.
  - repeat split.
Qed.

End ProgramFacts.
